(** * Conversation memory of the Telegram relay bot ([bot.py])

    A shallow embedding of the conversation-memory functions of [bot.py]
    ([load_chat_memory], [save_chat_memory], [update_message_history]) and of
    the two handlers built on them ([on_message], [clear_data]), together
    with the properties of the bounded history, of the record life cycle and
    of the authorization gate.

    Python lists of message dicts are Rocq lists of [entry]; the [data/]
    directory is a finite map from file names to file contents; every call
    that touches the outside world (files, logger, transport) is an [event]
    emitted by a small state-and-exception monad. *)

From stdpp Require Import base strings pretty list gmap.

(** ** Data *)

(** The value of the ["from"] key of a message dict. *)
Inductive role := user | bot.

(** [{"from": ..., "text": ...}]. *)
Record entry := Entry { from : role; text : string }.

(** [{"username": ..., "messages": [...]}]. *)
Record memory := Memory { username : string; messages : list entry }.

Global Instance role_eq_dec : EqDecision role.
Proof. solve_decision. Defined.
Global Instance entry_eq_dec : EqDecision entry.
Proof. solve_decision. Defined.
Global Instance memory_eq_dec : EqDecision memory.
Proof. solve_decision. Defined.

(** ** The bounded history *)

Module History.

(** The literal [20] of [update_message_history]. *)
Definition bound : nat := 20.

(** [messages[-n:]] for [n > 0]: the last [n] elements, the whole list when
    it has fewer. *)
Definition last_n {A} (n : nat) (l : list A) : list A :=
  drop (length l - n) l.

(** [update_message_history(messages, new_message)]:
<<
    messages.append(new_message)
    return messages[-20:] if len(messages) > 20 else messages
>>
    The append is in place, on the caller's list; [on_message], the only
    caller, rebinds [memory["messages"]] to the result at once and holds no
    other reference to the list, so the function is modelled by its result. *)
Definition update_message_history (messages : list entry) (new_message : entry)
  : list entry :=
  let messages := messages ++ [new_message] in
  if decide (bound < length messages) then last_n bound messages
  else messages.

(** The history after a run of appends, one call per new entry. *)
Definition append_all (h0 : list entry) (news : list entry) : list entry :=
  foldl update_message_history h0 news.

(** The history as it stands after each of the appends, first append first. *)
Fixpoint after_each (h0 : list entry) (news : list entry) : list (list entry) :=
  match news with
  | [] => []
  | e :: news' =>
      let h1 := update_message_history h0 e in h1 :: after_each h1 news'
  end.

End History.

(** ** The outside world: files, logger, transport *)

(** What a file of [data/] holds, as [json.load] sees it: the text that
    [json.dump] writes for a memory dict (loading gives the dict back), or
    text that [json.load] rejects. *)
Inductive content := Json (m : memory) | Undecodable.

Global Instance content_eq_dec : EqDecision content.
Proof. solve_decision. Defined.

(** The exceptions these functions can meet: [open] of a missing file and
    [json.load] of text that is not JSON. *)
Inductive exn := FileNotFoundError (path : string) | JSONDecodeError.

(** Levels of the [logging] module with their numeric values. *)
Inductive level := DEBUG | INFO | WARNING | ERROR.

Definition levelno (l : level) : nat :=
  match l with DEBUG => 10 | INFO => 20 | WARNING => 30 | ERROR => 40 end.

(** The three functions of the conversation store. *)
Inductive fn := load_chat_memory_fn | save_chat_memory_fn | update_message_history_fn.

(** Everything a handler does that is visible from outside, in the order it
    happens: entering a store function, file-system calls, log records that
    pass the logger's level, and text handed to the transport. *)
Inductive event :=
  | Call (f : fn)
  | Mkdir (dir : string)
  | OpenRead (path : string)
  | Write (path : string) (c : content)
  | Exists (path : string)
  | Unlink (path : string)
  | Log (lvl : level) (msg : string)
  | Reply (msg : string).

Global Instance exn_eq_dec : EqDecision exn.
Proof. solve_decision. Defined.
Global Instance level_eq_dec : EqDecision level.
Proof. solve_decision. Defined.
Global Instance fn_eq_dec : EqDecision fn.
Proof. solve_decision. Defined.
Global Instance event_eq_dec : EqDecision event.
Proof. solve_decision. Defined.

(** How a Python call ends. *)
Inductive outcome (A : Type) := Return (a : A) | Raise (e : exn).
Arguments Return {A} a.
Arguments Raise {A} e.

(** A computation runs on the files of the working directory (file name to
    content) and gives its outcome, the files afterwards and the events it
    emitted. Directories are not part of the state: [load_chat_memory]
    creates [data/] before it touches a file, and [save_chat_memory] is
    only ever called after it. *)
Definition io (A : Type) : Type :=
  gmap string content → outcome A * gmap string content * list event.

Global Instance io_ret : MRet io := λ A a fs, (Return a, fs, []).

Global Instance io_bind : MBind io := λ A B k c fs,
  match c fs with
  | (Return a, fs1, t1) => let '(r, fs2, t2) := k a fs1 in (r, fs2, t1 ++ t2)
  | (Raise e, fs1, t1) => (Raise e, fs1, t1)
  end.

Definition emit (e : event) : io unit := λ fs, (Return (), fs, [e]).

(** [try: body / except FileNotFoundError: handler]; any other exception
    goes through. *)
Definition try_except_FileNotFoundError {A} (body handler : io A) : io A := λ fs,
  match body fs with
  | (Raise (FileNotFoundError _), fs1, t1) =>
      let '(r, fs2, t2) := handler fs1 in (r, fs2, t1 ++ t2)
  | res => res
  end.

(** [open(path, "r")] followed by reading the whole file. *)
Definition open_read (path : string) : io content := λ fs,
  match fs !! path with
  | Some c => (Return c, fs, [OpenRead path])
  | None => (Raise (FileNotFoundError path), fs, [OpenRead path])
  end.

(** [json.load(f)]. *)
Definition json_load (c : content) : io memory := λ fs,
  match c with
  | Json m => (Return m, fs, [])
  | Undecodable => (Raise JSONDecodeError, fs, [])
  end.

(** [with open(path, "w") as f: json.dump(memory, f, indent=2)]: the file is
    created or replaced whole. *)
Definition open_write_json_dump (path : string) (m : memory) : io unit := λ fs,
  (Return (), <[path := Json m]> fs, [Write path (Json m)]).

(** [Path(path).exists()]. *)
Definition path_exists (path : string) : io bool := λ fs,
  (Return (bool_decide (is_Some (fs !! path))), fs, [Exists path]).

(** [Path(path).unlink()]. *)
Definition path_unlink (path : string) : io unit := λ fs,
  match fs !! path with
  | Some _ => (Return (), delete path fs, [Unlink path])
  | None => (Raise (FileNotFoundError path), fs, [Unlink path])
  end.

(** [logging.basicConfig(..., level=logging.INFO)]: records below [INFO] are
    dropped. *)
Definition root_level : level := INFO.

Definition logger (lvl : level) (msg : string) : io unit :=
  if decide (levelno root_level ≤ levelno lvl) then emit (Log lvl msg)
  else mret ().

(** [await update.message.reply_text(msg)]. *)
Definition reply_text (msg : string) : io unit := emit (Reply msg).

(** ** The conversation store *)

(** [f"data/{user_id}.json"]. *)
Definition memory_file (user_id : Z) : string :=
  "data/" +:+ pretty user_id +:+ ".json".

(** [save_chat_memory(user_id, memory)]. *)
Definition save_chat_memory (user_id : Z) (memory : memory) : io unit :=
  emit (Call save_chat_memory_fn) ;;
  open_write_json_dump (memory_file user_id) memory.

(** [load_chat_memory(user_id, username)]: the [try] covers both the [open]
    and the [json.load]; only [FileNotFoundError] is handled. *)
Definition load_chat_memory (user_id : Z) (username : string) : io memory :=
  emit (Call load_chat_memory_fn) ;;
  emit (Mkdir "data") ;;
  let memory_file := memory_file user_id in
  try_except_FileNotFoundError
    (f ← open_read memory_file; json_load f)
    (let memory := Memory username [] in
     save_chat_memory user_id memory ;;
     mret memory).

(** A call of [update_message_history] from a handler: the function itself
    is pure. *)
Definition update_message_history (messages : list entry) (new_message : entry)
  : io (list entry) :=
  emit (Call update_message_history_fn) ;;
  mret (History.update_message_history messages new_message).

(** ** The handlers *)

(** What the handlers read of a Telegram [Update]: [effective_user.id],
    [effective_user.username] (which may be [None]) and [message.text]. *)
Record update := Update {
  effective_user_id : Z;
  effective_user_username : option string;
  message_text : string
}.

(** [username or str(user_id)]: [None] and the empty string are falsy. *)
Definition username_or_str (username : option string) (user_id : Z) : string :=
  match username with
  | Some s => if decide (s = "") then pretty user_id else s
  | None => pretty user_id
  end.

Section handlers.

(** The decoded [allowed_users.json], a JSON array of user ids; [in] on a
    Python list is a scan for an equal element. *)
Variable ALLOWED_USERS : list Z.

Definition on_message (update : update) : io unit :=
  let user_id := effective_user_id update in
  if decide (user_id ∉ ALLOWED_USERS) then
    logger WARNING ("Unauthorized message attempt from user ID: " +:+ pretty user_id)
  else
    logger DEBUG ("Received message from user ID: " +:+ pretty user_id) ;;
    memory ← load_chat_memory user_id
               (username_or_str (effective_user_username update) user_id);
    msgs ← update_message_history (messages memory)
             (Entry user (message_text update));
    let memory := Memory (username memory) msgs in
    let reply := message_text update in
    reply_text reply ;;
    msgs ← update_message_history (messages memory) (Entry bot reply);
    let memory := Memory (username memory) msgs in
    save_chat_memory user_id memory.

Definition clear_data (update : update) : io unit :=
  let user_id := effective_user_id update in
  if decide (user_id ∉ ALLOWED_USERS) then
    logger WARNING ("Unauthorized clear attempt from user ID: " +:+ pretty user_id)
  else
    let data_file := memory_file user_id in
    ex ← path_exists data_file;
    if (ex : bool) then
      path_unlink data_file ;;
      logger INFO ("Deleted chat history for user ID: " +:+ pretty user_id) ;;
      reply_text "Your chat history has been cleared."
    else
      reply_text "No chat history found.".

End handlers.

(** ** Reading a run *)

(** The three components of a run. *)
Definition result_of {A} (run : outcome A * gmap string content * list event)
  : outcome A := run.1.1.
Definition files_of {A} (run : outcome A * gmap string content * list event)
  : gmap string content := run.1.2.
Definition trace_of {A} (run : outcome A * gmap string content * list event)
  : list event := run.2.

(** The texts handed to the transport, in order. *)
Definition replies (t : list event) : list string :=
  omap (λ e, match e with Reply msg => Some msg | _ => None end) t.

(** The records written, in order. *)
Definition writes (t : list event) : list (string * content) :=
  omap (λ e, match e with Write p c => Some (p, c) | _ => None end) t.

(** The path a file-system call names: the directory it creates, or the
    file it reads, writes, tests or removes. *)
Definition file_of (e : event) : option string :=
  match e with
  | Mkdir p | OpenRead p | Write p _ | Exists p | Unlink p => Some p
  | Call _ | Log _ _ | Reply _ => None
  end.

(** Whether a record holding entry [e] is written before the first reply
    goes out. *)
Fixpoint saved_before_reply (e : entry) (t : list event) : bool :=
  match t with
  | [] => false
  | Reply _ :: _ => false
  | Write _ (Json m) :: t' =>
      if decide (e ∈ messages m) then true else saved_before_reply e t'
  | _ :: t' => saved_before_reply e t'
  end.

(** A run leaves file [path] alone: the content under that name is what it
    was, and no event of the run reads, writes, tests or removes it. *)
Definition leaves_alone {A} (path : string) (fs : gmap string content)
    (run : outcome A * gmap string content * list event) : Prop :=
  files_of run !! path = fs !! path
  ∧ Forall (λ e, file_of e ≠ Some path) (trace_of run).

(** What a load emits up to and including its [open]. *)
Definition load_trace (user_id : Z) : list event :=
  [Call load_chat_memory_fn; Mkdir "data"; OpenRead (memory_file user_id)].

(** What [on_message] emits once the load has returned: the reply goes out
    between the two appends, the save comes last. *)
Definition reply_then_save (user_id : Z) (msg : string) (final : memory)
  : list event :=
  [Call update_message_history_fn; Reply msg;
   Call update_message_history_fn; Call save_chat_memory_fn;
   Write (memory_file user_id) (Json final)].

(** Files for the examples: an empty [data/], one with a record of user 42,
    and one where that file is not JSON. *)
Definition no_files : gmap string content := ∅.
Definition ada_files : gmap string content :=
  {[ memory_file 42 := Json (Memory "ada" [Entry user "hi"; Entry bot "hi"]) ]}.
Definition corrupt_files : gmap string content :=
  {[ memory_file 42 := Undecodable ]}.
Definition two_users_files : gmap string content :=
  <[ memory_file 7 := Json (Memory "bob" [Entry user "yo"; Entry bot "yo"]) ]>
    ada_files.
Definition hello_from_ada : update := Update 42 (Some "ada") "hello".
Definition hi_from_stranger : update := Update 7 None "hi".

(** ** Sessions *)

(** The two entries one handled message adds to the history. *)
Definition exchange (u : update) : list entry :=
  [Entry user (message_text u); Entry bot (message_text u)].

(** The entries a run of handled messages adds, oldest first. *)
Definition transcript (us : list update) : list entry :=
  concat (exchange <$> us).

(** [on_message] run on each update in turn, each run starting from the
    files the one before left: the outcomes of the runs, the files at the
    end and everything emitted. *)
Fixpoint handle_all (ALLOWED_USERS : list Z) (us : list update)
    (fs : gmap string content)
  : list (outcome unit) * gmap string content * list event :=
  match us with
  | [] => ([], fs, [])
  | u :: us' =>
      let '(r, fs1, t1) := on_message ALLOWED_USERS u fs in
      let '(rs, fs2, t2) := handle_all ALLOWED_USERS us' fs1 in
      (r :: rs, fs2, t1 ++ t2)
  end.

(** The log records of a trace, in order. *)
Definition logs (t : list event) : list (level * string) :=
  omap (λ e, match e with Log lvl msg => Some (lvl, msg) | _ => None end) t.

(** Every record on file is within the bound of the history. *)
Definition bounded_store (fs : gmap string content) : Prop :=
  map_Forall (λ _ c, match c with
                     | Json m => length (messages m) ≤ History.bound
                     | Undecodable => True
                     end) fs.

(** Twenty-six messages of user 42, with texts "0" to "25". *)
Definition session_26 : list update :=
  (λ n : nat, Update 42 (Some "ada") (pretty n)) <$> seq 0 26.

(** ** Runs that overlap *)

(** The handlers are coroutines: a run goes on without interruption until
    it reaches an [await], and another run can be scheduled only there.
    [on_message] has one [await], on the send at [reply_text]; while it
    waits, the run holds its local variables [user_id], [memory] (with the
    user entry appended) and [reply]. *)
Record suspended := Suspended {
  held_user_id : Z;
  held_memory : memory;
  held_reply : string
}.

(** [on_message] from its start to the [await]: the gate, the load, the
    append of the user entry and the call of [reply_text]. [None] when the
    run has ended without reaching the [await]. *)
Definition on_message_until_await (ALLOWED_USERS : list Z) (update : update)
  : io (option suspended) :=
  let user_id := effective_user_id update in
  if decide (user_id ∉ ALLOWED_USERS) then
    logger WARNING ("Unauthorized message attempt from user ID: " +:+ pretty user_id) ;;
    mret None
  else
    logger DEBUG ("Received message from user ID: " +:+ pretty user_id) ;;
    memory ← load_chat_memory user_id
               (username_or_str (effective_user_username update) user_id);
    msgs ← update_message_history (messages memory)
             (Entry user (message_text update));
    let memory := Memory (username memory) msgs in
    let reply := message_text update in
    reply_text reply ;;
    mret (Some (Suspended user_id memory reply)).

(** [on_message] from the [await] to its end: the append of the bot entry
    to the list the run holds, and the save. *)
Definition on_message_after_await (held : suspended) : io unit :=
  msgs ← update_message_history (messages (held_memory held))
           (Entry bot (held_reply held));
  let memory := Memory (username (held_memory held)) msgs in
  save_chat_memory (held_user_id held) memory.

(** A run taken up again where its first part left it: nothing is left to
    do when that part ended the run, by returning or by raising. *)
Definition resume (first_part : outcome (option suspended)) : io unit :=
  match first_part with
  | Return (Some held) => on_message_after_await held
  | Return None => mret ()
  | Raise e => λ fs, (Raise e, fs, [])
  end.



(** ** Start-up configuration *)

(** What a configuration file holds, as [json.load] sees it: text that
    decodes to a value, or text that is not JSON. *)
Inductive config_text (J : Type) := Decodes (v : J) | NotJson.
Arguments Decodes {J} v.
Arguments NotJson {J}.

(** How a start-up step ends: with a value, with [sys.exit(status)], or
    with the decoding error of [json.load], which nothing catches. *)
Inductive startup (A : Type) :=
  | Loaded (a : A)
  | SystemExit (status : Z)
  | DecodeError.
Arguments Loaded {A} a.
Arguments SystemExit {A} status.
Arguments DecodeError {A}.

(** [load_json_file(filename)]:
<<
    try:
        with open(filename, "r") as f:
            return json.load(f)
    except FileNotFoundError:
        logger.error(f"{filename} not found. Please create the file ...")
        sys.exit(1)
>>
    It reads and never writes, so it gives its outcome and the events. *)
Definition load_json_file {J} (filename : string)
    (disk : gmap string (config_text J)) : startup J * list event :=
  match disk !! filename with
  | Some (Decodes v) => (Loaded v, [OpenRead filename])
  | Some NotJson => (DecodeError, [OpenRead filename])
  | None =>
      (SystemExit 1,
       OpenRead filename ::
       (if decide (levelno root_level ≤ levelno ERROR) then
          [Log ERROR (filename +:+
             " not found. Please create the file with required configuration.")]
        else []))
  end.

(** The two module-level loads, in the order of the source:
<<
    ALLOWED_USERS = load_json_file("allowed_users.json")
    CONFIG = load_json_file("private.json")
>> *)
Definition load_configuration_files {J} (disk : gmap string (config_text J))
  : startup (J * J) * list event :=
  let '(allowed, t1) := load_json_file "allowed_users.json" disk in
  match allowed with
  | Loaded ALLOWED_USERS =>
      let '(config, t2) := load_json_file "private.json" disk in
      (match config with
       | Loaded CONFIG => Loaded (ALLOWED_USERS, CONFIG)
       | SystemExit status => SystemExit status
       | DecodeError => DecodeError
       end, t1 ++ t2)
  | SystemExit status => (SystemExit status, t1)
  | DecodeError => (DecodeError, t1)
  end.

(** A disk for the examples where [private.json] decodes and
    [allowed_users.json] is missing. *)
Definition only_private_json : gmap string (config_text (list Z)) :=
  {[ "private.json" := Decodes [] ]}.

(** * Properties *)

(** ** The bounded history *)

Module HistoryFacts.
Import History.

Lemma update_message_history_last_n h e :
  update_message_history h e = last_n bound (h ++ [e]).
Proof.
  unfold update_message_history, last_n. case_decide as H; [done|].
  by replace (length (h ++ [e]) - bound) with 0 by lia.
Qed.

Lemma length_last_n {A} n (l : list A) : length (last_n n l) = length l `min` n.
Proof. unfold last_n. rewrite length_drop. lia. Qed.

Lemma last_n_snoc (h : list entry) e :
  last_n bound (last_n bound h ++ [e]) = last_n bound (h ++ [e]).
Proof.
  unfold last_n. assert (Hb : 1 ≤ bound) by (unfold bound; lia).
  revert Hb. generalize bound as b. intros b Hb.
  rewrite !length_app, length_drop. cbn [length].
  destruct (decide (length h ≤ b)) as [Hle|Hgt].
  - replace (length h - b) with 0 by lia. rewrite drop_0.
    f_equal. lia.
  - rewrite (drop_app_le h [e] (length h + 1 - b)) by lia.
    rewrite drop_app_le by (rewrite length_drop; lia).
    rewrite drop_drop. f_equal. f_equal. lia.
Qed.

Lemma append_all_last_n news : ∀ h,
  append_all (last_n bound h) news = last_n bound (h ++ news).
Proof.
  induction news as [|e news IH]; intros h; simpl.
  - by rewrite app_nil_r.
  - rewrite update_message_history_last_n, last_n_snoc, IH.
    by rewrite <- app_assoc.
Qed.

Lemma length_update_message_history h e :
  length (update_message_history h e) ≤ bound.
Proof. rewrite update_message_history_last_n, length_last_n. lia. Qed.

Lemma after_each_bounded news : ∀ h0,
  Forall (λ h, length h ≤ bound) (after_each h0 news).
Proof.
  induction news as [|e news IH]; intros h0; simpl; constructor.
  - apply length_update_message_history.
  - apply IH.
Qed.

Lemma last_after_each news : ∀ h0,
  last (after_each h0 news) = (λ _, append_all h0 news) <$> last news.
Proof.
  induction news as [|e news IH]; intros h0; [done|].
  cbn [after_each]. destruct news as [|e' news]; [done|].
  change (last (?a :: after_each ?h (e' :: news)))
    with (last (after_each h (e' :: news))).
  rewrite IH. done.
Qed.

(** The two entries a handler appends are the last two of the result. *)
Lemma update_twice_suffix h a b :
  ∃ kept, update_message_history (update_message_history h a) b = kept ++ [a; b]
          ∧ kept = drop (length h + 2 - bound) h.
Proof.
  eexists; split; [|done].
  rewrite !update_message_history_last_n, last_n_snoc, <- app_assoc. simpl.
  unfold last_n. rewrite length_app. simpl.
  destruct (decide (length h + 2 - bound ≤ length h)) as [Hle|Hgt].
  - by rewrite drop_app_le by lia.
  - unfold bound in *. lia.
Qed.

(** C1. For every starting history and every run of appends made with
    [update_message_history], the history after each append has at most 20
    entries; starting from the empty history, the entries kept after [N]
    appends are exactly the last [min N 20] appended entries, in the order
    in which they were appended, so the oldest are the ones dropped. *)
Theorem update_message_history_bounded_fifo (h0 news : list entry) :
  Forall (λ h, length h ≤ 20) (after_each h0 news)
  ∧ last (after_each h0 news) = (λ _, append_all h0 news) <$> last news
  ∧ append_all [] news = drop (length news - length news `min` 20) news
  ∧ length (append_all [] news) = length news `min` 20.
Proof.
  split; [apply after_each_bounded|]. split; [apply last_after_each|].
  pose proof (append_all_last_n news []) as H.
  change (last_n bound []) with (@nil entry) in H. rewrite app_nil_l in H.
  rewrite H, length_last_n. split; [|done].
  unfold last_n, bound. f_equal. lia.
Qed.

End HistoryFacts.

(** ** Runs of the store functions *)

Module StoreFacts.

Ltac run :=
  cbv [load_chat_memory save_chat_memory update_message_history
       try_except_FileNotFoundError open_read json_load open_write_json_dump
       path_exists path_unlink logger reply_text emit root_level levelno
       mbind mret io_bind io_ret result_of files_of trace_of fst snd];
  repeat (case_decide; try lia); cbn [app].

Lemma save_chat_memory_run user_id m fs :
  save_chat_memory user_id m fs =
  (Return (), <[memory_file user_id := Json m]> fs,
   [Call save_chat_memory_fn; Write (memory_file user_id) (Json m)]).
Proof. by run. Qed.

Lemma load_chat_memory_run user_id hint fs :
  load_chat_memory user_id hint fs =
  match fs !! memory_file user_id with
  | Some (Json m) => (Return m, fs, load_trace user_id)
  | Some Undecodable => (Raise JSONDecodeError, fs, load_trace user_id)
  | None =>
      (Return (Memory hint []),
       <[memory_file user_id := Json (Memory hint [])]> fs,
       load_trace user_id ++
       [Call save_chat_memory_fn;
        Write (memory_file user_id) (Json (Memory hint []))])
  end.
Proof. run. by destruct (fs !! memory_file user_id) as [[m|]|]. Qed.

Lemma string_length_app (s t : string) :
  String.length (s +:+ t) = String.length s + String.length t.
Proof. induction s as [|a s IH]; simpl; [done|]. by rewrite IH. Qed.

Lemma string_app_inj_r (t s1 s2 : string) : s1 +:+ t = s2 +:+ t → s1 = s2.
Proof.
  revert s2. induction s1 as [|a s1 IH]; intros [|b s2] H.
  - done.
  - apply (f_equal String.length) in H.
    rewrite !string_length_app in H. simpl in H. lia.
  - apply (f_equal String.length) in H.
    rewrite !string_length_app in H. simpl in H. lia.
  - injection H as -> H. f_equal. by apply IH.
Qed.

(** Distinct users have distinct files. *)
Lemma memory_file_inj : Inj (=) (=) memory_file.
Proof.
  intros a b H. unfold memory_file in H.
  apply (inj (String.app "data/")) in H.
  apply string_app_inj_r in H. by apply (inj pretty) in H.
Qed.

End StoreFacts.

(** ** Runs of the handlers *)

Module HandlerFacts.
Import StoreFacts.

Ltac run_handler :=
  cbv [update_message_history logger reply_text emit root_level levelno
       path_exists path_unlink mbind mret io_bind io_ret];
  repeat (case_decide; try lia); try done.

Lemma on_message_unauthorized A u fs :
  effective_user_id u ∉ A →
  on_message A u fs =
  (Return (), fs,
   [Log WARNING ("Unauthorized message attempt from user ID: "
                 +:+ pretty (effective_user_id u))]).
Proof. intros Hu. unfold on_message. by run_handler. Qed.

Lemma clear_data_unauthorized A u fs :
  effective_user_id u ∉ A →
  clear_data A u fs =
  (Return (), fs,
   [Log WARNING ("Unauthorized clear attempt from user ID: "
                 +:+ pretty (effective_user_id u))]).
Proof. intros Hu. unfold clear_data. by run_handler. Qed.

Lemma on_message_authorized A u fs :
  effective_user_id u ∈ A →
  on_message A u fs =
  let user_id := effective_user_id u in
  match load_chat_memory user_id
          (username_or_str (effective_user_username u) user_id) fs with
  | (Return m0, fs0, t0) =>
      let final :=
        Memory (username m0)
          (History.update_message_history
             (History.update_message_history (messages m0)
                (Entry user (message_text u)))
             (Entry bot (message_text u))) in
      (Return (), <[memory_file user_id := Json final]> fs0,
       t0 ++ reply_then_save user_id (message_text u) final)
  | (Raise e, fs0, t0) => (Raise e, fs0, t0)
  end.
Proof.
  intros Hu. unfold on_message. case_decide; [done|].
  cbv [update_message_history logger reply_text emit root_level levelno
       mbind mret io_bind io_ret].
  case_decide; [lia|].
  destruct (load_chat_memory _ _ fs) as [[[m0|e] fs0] t0]; [|done].
  by rewrite save_chat_memory_run.
Qed.

Lemma clear_data_authorized A u fs :
  effective_user_id u ∈ A →
  clear_data A u fs =
  let data_file := memory_file (effective_user_id u) in
  match fs !! data_file with
  | Some _ =>
      (Return (), delete data_file fs,
       [Exists data_file; Unlink data_file;
        Log INFO ("Deleted chat history for user ID: "
                  +:+ pretty (effective_user_id u));
        Reply "Your chat history has been cleared."])
  | None => (Return (), fs, [Exists data_file; Reply "No chat history found."])
  end.
Proof.
  intros Hu. unfold clear_data. case_decide; [done|].
  cbv [logger reply_text emit root_level levelno path_exists path_unlink
       mbind mret io_bind io_ret].
  destruct (fs !! memory_file (effective_user_id u)) as [c|] eqn:Hf.
  - rewrite bool_decide_eq_true_2 by eauto. rewrite Hf.
    case_decide; [done|lia].
  - rewrite bool_decide_eq_false_2 by (by intros [? ?]). done.
Qed.

End HandlerFacts.

(** ** Load-or-create *)

Module LoadFacts.
Import StoreFacts HandlerFacts.

(** A load leaves a file that the next load reads back. *)
Lemma load_chat_memory_again user_id hint hint' fs :
  let first := load_chat_memory user_id hint fs in
  load_chat_memory user_id hint' (files_of first) =
  (result_of first, files_of first, load_trace user_id).
Proof.
  cbv zeta. rewrite (load_chat_memory_run user_id hint fs).
  destruct (fs !! memory_file user_id) as [[m|]|] eqn:Hf;
    cbv [files_of result_of fst snd];
    rewrite load_chat_memory_run.
  - by rewrite Hf.
  - by rewrite Hf.
  - by rewrite lookup_insert_eq.
Qed.

(** C3, as the code has it. [load_chat_memory] handles only the missing
    file: when the file of an authorized user is absent, a record with the
    hint and an empty history is written and returned; when the file is
    there but is not JSON, the decoding error leaves [load_chat_memory]
    and [on_message] uncaught, nothing is written and no reply is sent. *)
Theorem load_chat_memory_absent_or_corrupt A u fs :
  effective_user_id u ∈ A →
  let user_id := effective_user_id u in
  let hint := username_or_str (effective_user_username u) user_id in
  (fs !! memory_file user_id = None →
     load_chat_memory user_id hint fs =
     (Return (Memory hint []),
      <[memory_file user_id := Json (Memory hint [])]> fs,
      load_trace user_id ++
      [Call save_chat_memory_fn;
       Write (memory_file user_id) (Json (Memory hint []))]))
  ∧ (fs !! memory_file user_id = Some Undecodable →
     load_chat_memory user_id hint fs =
       (Raise JSONDecodeError, fs, load_trace user_id)
     ∧ on_message A u fs = (Raise JSONDecodeError, fs, load_trace user_id)).
Proof.
  intros Hu user_id hint. split; intros Hf.
  - by rewrite load_chat_memory_run, Hf.
  - rewrite on_message_authorized by done. cbv zeta.
    fold user_id hint. by rewrite load_chat_memory_run, Hf.
Qed.

(** C4. [load_chat_memory] returns the stored record as it is, without
    writing, when the user's file holds one; when there is no file it
    builds the record with the hint and an empty history, writes it at
    once and returns it. A load that follows, whatever its hint, returns
    what the first load returned and leaves the files, and with them the
    stored user name, as they were. *)
Theorem load_chat_memory_load_or_create (user_id : Z) (hint : string)
    (fs : gmap string content) :
  match fs !! memory_file user_id with
  | Some (Json m) =>
      load_chat_memory user_id hint fs = (Return m, fs, load_trace user_id)
  | None =>
      load_chat_memory user_id hint fs =
      (Return (Memory hint []),
       <[memory_file user_id := Json (Memory hint [])]> fs,
       load_trace user_id ++
       [Call save_chat_memory_fn;
        Write (memory_file user_id) (Json (Memory hint []))])
  | Some Undecodable =>
      result_of (load_chat_memory user_id hint fs) = Raise JSONDecodeError
  end
  ∧ ∀ hint' : string,
      let first := load_chat_memory user_id hint fs in
      let second := load_chat_memory user_id hint' (files_of first) in
      result_of second = result_of first
      ∧ files_of second = files_of first
      ∧ writes (trace_of second) = [].
Proof.
  split.
  - rewrite load_chat_memory_run.
    by destruct (fs !! memory_file user_id) as [[m|]|].
  - intros hint'. cbv zeta. by rewrite load_chat_memory_again.
Qed.

(** C7. Two calls of [load_chat_memory] in a row for the same user, with
    nothing done to the files in between, end the same way: with the same
    record when the file is absent or holds a record (and the second call
    changes no file), with the same decoding error when it is not JSON. *)
Theorem load_chat_memory_twice (user_id : Z) (hint : string)
    (fs : gmap string content) :
  let first := load_chat_memory user_id hint fs in
  let second := load_chat_memory user_id hint (files_of first) in
  result_of second = result_of first
  ∧ files_of second = files_of first
  ∧ match fs !! memory_file user_id with
    | Some Undecodable => result_of first = Raise JSONDecodeError
    | Some (Json m) => result_of first = Return m
    | None => result_of first = Return (Memory hint [])
    end.
Proof.
  cbv zeta. rewrite load_chat_memory_again. do 2 (split; [done|]).
  rewrite load_chat_memory_run.
  by destruct (fs !! memory_file user_id) as [[m|]|].
Qed.

End LoadFacts.

(** ** The handlers *)

Module Handlers.
Import StoreFacts HandlerFacts HistoryFacts.

(** C5. An event, message or clear command, whose sender is not in
    [ALLOWED_USERS] makes the handler return normally after one warning
    record: no store function is entered, no file is read, written or
    removed, and nothing is sent. *)
Theorem unauthorized_is_dropped A u fs :
  effective_user_id u ∉ A →
  on_message A u fs =
    (Return (), fs,
     [Log WARNING ("Unauthorized message attempt from user ID: "
                   +:+ pretty (effective_user_id u))])
  ∧ clear_data A u fs =
    (Return (), fs,
     [Log WARNING ("Unauthorized clear attempt from user ID: "
                   +:+ pretty (effective_user_id u))]).
Proof.
  intros Hu. split.
  - by apply on_message_unauthorized.
  - by apply clear_data_unauthorized.
Qed.

(** C6. For an authorized user, [clear_data] removes the user's file and
    answers that the history has been cleared when the file exists, and
    answers that no history was found, removing nothing, when it does not;
    in both cases it returns normally, the file is absent afterwards, and
    a second [clear_data] right after answers that no history was found
    and leaves the files as they are. *)
Theorem clear_data_idempotent A u fs :
  effective_user_id u ∈ A →
  let data_file := memory_file (effective_user_id u) in
  let once := clear_data A u fs in
  let twice := clear_data A u (files_of once) in
  match fs !! data_file with
  | Some _ =>
      once =
      (Return (), delete data_file fs,
       [Exists data_file; Unlink data_file;
        Log INFO ("Deleted chat history for user ID: "
                  +:+ pretty (effective_user_id u));
        Reply "Your chat history has been cleared."])
  | None => once = (Return (), fs, [Exists data_file; Reply "No chat history found."])
  end
  ∧ files_of once !! data_file = None
  ∧ twice =
    (Return (), files_of once, [Exists data_file; Reply "No chat history found."]).
Proof.
  intros Hu data_file once twice.
  assert (Hgone : files_of once !! data_file = None).
  { subst once. rewrite clear_data_authorized by done. cbv zeta.
    fold data_file. destruct (fs !! data_file) eqn:Hf; cbv [files_of fst snd].
    - apply lookup_delete_eq.
    - done. }
  split; [|split; [done|]].
  - subst once. rewrite clear_data_authorized by done. cbv zeta.
    fold data_file. by destruct (fs !! data_file).
  - subst twice. rewrite clear_data_authorized by done. cbv zeta.
    fold data_file. by rewrite Hgone.
Qed.

(** C8. For an authorized text message whose record can be loaded, exactly
    one reply is sent and it is the inbound text; when the user had no
    file, the record stored afterwards holds the user entry and the bot
    entry with that text, in this order, and nothing else; when the user
    had a record, these two entries are appended to it under the bound. *)
Theorem on_message_echo A u fs :
  effective_user_id u ∈ A →
  let user_id := effective_user_id u in
  let run := on_message A u fs in
  let said := Entry user (message_text u) in
  let echoed := Entry bot (message_text u) in
  match fs !! memory_file user_id with
  | None =>
      result_of run = Return ()
      ∧ replies (trace_of run) = [message_text u]
      ∧ files_of run !! memory_file user_id =
        Some (Json (Memory (username_or_str (effective_user_username u) user_id)
                      [said; echoed]))
  | Some (Json m) =>
      result_of run = Return ()
      ∧ replies (trace_of run) = [message_text u]
      ∧ files_of run !! memory_file user_id =
        Some (Json (Memory (username m)
                      (History.update_message_history
                         (History.update_message_history (messages m) said)
                         echoed)))
  | Some Undecodable => replies (trace_of run) = []
  end.
Proof.
  intros Hu user_id run said echoed. subst run.
  rewrite on_message_authorized by done. cbv zeta. fold user_id.
  rewrite load_chat_memory_run.
  destruct (fs !! memory_file user_id) as [[m|]|];
    cbv [result_of files_of trace_of fst snd]; [| done |].
  - by rewrite lookup_insert_eq.
  - by rewrite lookup_insert_eq.
Qed.

(** C2, as the code has it. For an authorized message whose record can be
    loaded, [on_message] sends the reply first and saves afterwards, once:
    the only write after the load comes after the reply and carries the
    record whose history ends with the user entry followed by the bot
    entry. Up to the moment of the send no reply has gone out and no
    record holding the user entry has been written (the load writes at
    most the fresh record with an empty history). *)
Theorem on_message_saves_once_after_reply A u fs :
  effective_user_id u ∈ A →
  fs !! memory_file (effective_user_id u) ≠ Some Undecodable →
  let user_id := effective_user_id u in
  let hint := username_or_str (effective_user_username u) user_id in
  let said := Entry user (message_text u) in
  let echoed := Entry bot (message_text u) in
  ∃ m0 fs0 t0 kept,
    load_chat_memory user_id hint fs = (Return m0, fs0, t0)
    ∧ kept = drop (length (messages m0) + 2 - 20) (messages m0)
    ∧ on_message A u fs =
      (Return (),
       <[memory_file user_id :=
           Json (Memory (username m0) (kept ++ [said; echoed]))]> fs0,
       t0 ++ reply_then_save user_id (message_text u)
               (Memory (username m0) (kept ++ [said; echoed])))
    ∧ replies t0 = []
    ∧ Forall (λ w, w.2 = Json (Memory hint [])) (writes t0)
    ∧ saved_before_reply said (trace_of (on_message A u fs)) = false.
Proof.
  intros Hu Hok user_id hint said echoed.
  rewrite on_message_authorized by done. cbv zeta. fold user_id hint said echoed.
  destruct (update_twice_suffix
              (messages (match fs !! memory_file user_id with
                         | Some (Json m) => m | _ => Memory hint [] end))
              said echoed) as (kept & Hupd & Hkept).
  rewrite load_chat_memory_run.
  destruct (fs !! memory_file user_id) as [[m|]|] eqn:Hf; [| done |].
  - eexists m, fs, _, kept. split; [done|]. rewrite Hupd.
    repeat split; try done.
  - eexists _, _, _, kept. split; [done|]. cbn [username messages] in *.
    rewrite Hupd. repeat split; try done.
    cbn. by repeat constructor.
Qed.

Lemma insert_other_file user_id other (c : content) (fs : gmap string content) :
  other ≠ user_id →
  <[memory_file user_id := c]> fs !! memory_file other = fs !! memory_file other.
Proof.
  intros Hne. apply lookup_insert_ne. intros H. by apply memory_file_inj in H.
Qed.

Lemma other_file_ne user_id other :
  other ≠ user_id → Some (memory_file user_id) ≠ Some (memory_file other).
Proof.
  intros Hne H. apply Hne. symmetry. apply memory_file_inj.
  by apply (inj Some).
Qed.

(** The directory is not the file of any user. *)
Lemma data_dir_ne user_id : Some "data" ≠ Some (memory_file user_id).
Proof.
  intros H. apply (inj Some) in H. unfold memory_file in H. discriminate H.
Qed.

Local Ltac other_file Hne :=
  repeat constructor; cbn [file_of];
  first [done | by apply data_dir_ne | by apply other_file_ne].

(** C10. Each store operation for one user ([load_chat_memory],
    [save_chat_memory], the removal in [clear_data]) and the message
    handler built on them leave the file of every other user as it was,
    and none of their file-system calls names it: they read, write, test
    and remove only [data/<user_id>.json] of their own user. *)
Theorem store_operations_frame A u (hint : string) (m : memory)
    (fs : gmap string content) (other : Z) :
  other ≠ effective_user_id u →
  let user_id := effective_user_id u in
  leaves_alone (memory_file other) fs (load_chat_memory user_id hint fs)
  ∧ leaves_alone (memory_file other) fs (save_chat_memory user_id m fs)
  ∧ leaves_alone (memory_file other) fs (clear_data A u fs)
  ∧ leaves_alone (memory_file other) fs (on_message A u fs).
Proof.
  intros Hne user_id. unfold leaves_alone.
  assert (Hload : ∀ h, leaves_alone (memory_file other) fs
                         (load_chat_memory user_id h fs)).
  { intros h. unfold leaves_alone. rewrite load_chat_memory_run.
    destruct (fs !! memory_file user_id) as [[m'|]|];
      cbv [files_of trace_of fst snd]; (split; [|other_file Hne]); try done.
    by apply insert_other_file. }
  split; [apply Hload|]. split; [|split].
  - rewrite save_chat_memory_run. cbv [files_of trace_of fst snd].
    split; [by apply insert_other_file | other_file Hne].
  - destruct (decide (user_id ∈ A)) as [Hin|Hout].
    + rewrite clear_data_authorized by done. cbv zeta. fold user_id.
      destruct (fs !! memory_file user_id);
        cbv [files_of trace_of fst snd]; (split; [|other_file Hne]); try done.
      apply lookup_delete_ne. intros H. by apply memory_file_inj in H.
    + rewrite clear_data_unauthorized by done.
      cbv [files_of trace_of fst snd]. split; [done | other_file Hne].
  - destruct (decide (user_id ∈ A)) as [Hin|Hout].
    + rewrite on_message_authorized by done. cbv zeta. fold user_id.
      destruct (Hload (username_or_str (effective_user_username u) user_id))
        as [Hfiles Htrace].
      destruct (load_chat_memory user_id _ fs) as [[[m0|e] fs0] t0];
        cbv [files_of trace_of fst snd] in *; [|done].
      split.
      * by rewrite insert_other_file.
      * apply Forall_app. split; [done | other_file Hne].
    + rewrite on_message_unauthorized by done.
      cbv [files_of trace_of fst snd]. split; [done | other_file Hne].
Qed.

End Handlers.

(** ** The properties on concrete runs *)

Module Examples.
Import Handlers LoadFacts.

(** C2 as stated fails: user 42 has a record and sends "hello"; the reply
    goes out before anything is written, and the run has one write, not
    two. *)
Lemma on_message_replies_before_saving :
  let run := on_message [42%Z] hello_from_ada ada_files in
  trace_of run =
    [Call load_chat_memory_fn; Mkdir "data"; OpenRead "data/42.json";
     Call update_message_history_fn; Reply "hello";
     Call update_message_history_fn; Call save_chat_memory_fn;
     Write "data/42.json"
       (Json (Memory "ada" [Entry user "hi"; Entry bot "hi";
                            Entry user "hello"; Entry bot "hello"]))]
  ∧ saved_before_reply (Entry user "hello") (trace_of run) = false
  ∧ length (writes (trace_of run)) = 1.
Proof. by vm_compute. Qed.

Lemma on_message_saves_once_after_reply_witness :
  (42 : Z) ∈ [42%Z]
  ∧ ada_files !! memory_file 42 ≠ Some Undecodable
  ∧ replies (trace_of (on_message [42%Z] hello_from_ada ada_files)) = ["hello"]
  ∧ saved_before_reply (Entry user "hello")
      (trace_of (on_message [42%Z] hello_from_ada ada_files)) = false.
Proof.
  assert (H1 : (42 : Z) ∈ [42%Z]) by (by vm_compute; left).
  assert (H2 : ada_files !! memory_file 42 ≠ Some Undecodable)
    by (by vm_compute).
  destruct (on_message_saves_once_after_reply [42%Z] hello_from_ada ada_files
              H1 H2) as (m0 & fs0 & t0 & kept & _ & _ & _ & _ & _ & Hsaved).
  split; [exact H1|]. split; [exact H2|]. split; [reflexivity | exact Hsaved].
Defined.

(** C3 as stated fails: the file of user 42 is not JSON; the load raises
    instead of building a fresh record, the handler raises with it, no
    reply goes out and the file stays as it is. *)
Lemma load_chat_memory_corrupt_raises :
  load_chat_memory 42 "ada" corrupt_files =
    (Raise JSONDecodeError, corrupt_files, load_trace 42)
  ∧ result_of (on_message [42%Z] hello_from_ada corrupt_files)
    = Raise JSONDecodeError
  ∧ replies (trace_of (on_message [42%Z] hello_from_ada corrupt_files)) = []
  ∧ files_of (on_message [42%Z] hello_from_ada corrupt_files) !! memory_file 42
    = Some Undecodable.
Proof. by vm_compute. Qed.

Lemma load_chat_memory_absent_or_corrupt_witness :
  (42 : Z) ∈ [42%Z]
  ∧ corrupt_files !! memory_file 42 = Some Undecodable
  ∧ no_files !! memory_file 42 = None
  ∧ on_message [42%Z] hello_from_ada corrupt_files =
    (Raise JSONDecodeError, corrupt_files, load_trace 42)
  ∧ result_of (load_chat_memory 42 "ada" no_files) = Return (Memory "ada" []).
Proof.
  assert (H1 : (42 : Z) ∈ [42%Z]) by (by vm_compute; left).
  assert (H2 : corrupt_files !! memory_file 42 = Some Undecodable)
    by (by vm_compute).
  assert (H3 : no_files !! memory_file 42 = None) by (by vm_compute).
  do 3 (split; [assumption|]). split.
  - exact (proj2 (proj2 (load_chat_memory_absent_or_corrupt
                           [42%Z] hello_from_ada corrupt_files H1) H2)).
  - exact (f_equal result_of
             (proj1 (load_chat_memory_absent_or_corrupt
                       [42%Z] hello_from_ada no_files H1) H3)).
Defined.

Lemma unauthorized_is_dropped_witness :
  ((7 : Z) ∉ [42%Z])
  ∧ on_message [42%Z] hi_from_stranger ada_files =
    (Return (), ada_files,
     [Log WARNING "Unauthorized message attempt from user ID: 7"])
  ∧ clear_data [42%Z] hi_from_stranger ada_files =
    (Return (), ada_files,
     [Log WARNING "Unauthorized clear attempt from user ID: 7"]).
Proof.
  assert (H : (7 : Z) ∉ [42%Z]).
  { intros Hin. apply list_elem_of_singleton in Hin. discriminate Hin. }
  split; [exact H|]. exact (unauthorized_is_dropped [42%Z] hi_from_stranger ada_files H).
Defined.

Lemma clear_data_idempotent_witness :
  (42 : Z) ∈ [42%Z]
  ∧ result_of (clear_data [42%Z] hello_from_ada ada_files) = Return ()
  ∧ replies (trace_of (clear_data [42%Z] hello_from_ada ada_files))
    = ["Your chat history has been cleared."]
  ∧ files_of (clear_data [42%Z] hello_from_ada ada_files) !! memory_file 42 = None
  ∧ replies (trace_of (clear_data [42%Z] hello_from_ada
                         (files_of (clear_data [42%Z] hello_from_ada ada_files))))
    = ["No chat history found."].
Proof.
  assert (H : (42 : Z) ∈ [42%Z]) by (by vm_compute; left).
  destruct (clear_data_idempotent [42%Z] hello_from_ada ada_files H)
    as (Honce & Hgone & Htwice).
  split; [exact H|].
  split; [exact (f_equal result_of Honce)|].
  split; [exact (f_equal (λ r, replies (trace_of r)) Honce)|].
  split; [exact Hgone|].
  exact (f_equal (λ r, replies (trace_of r)) Htwice).
Defined.

Lemma on_message_echo_witness :
  (42 : Z) ∈ [42%Z]
  ∧ replies (trace_of (on_message [42%Z] hello_from_ada no_files)) = ["hello"]
  ∧ files_of (on_message [42%Z] hello_from_ada no_files) !! memory_file 42 =
    Some (Json (Memory "ada" [Entry user "hello"; Entry bot "hello"])).
Proof.
  assert (H : (42 : Z) ∈ [42%Z]) by (by vm_compute; left).
  destruct (on_message_echo [42%Z] hello_from_ada no_files H)
    as (_ & Hreply & Hstored).
  split; [exact H|]. split; [exact Hreply | exact Hstored].
Defined.

Lemma store_operations_frame_witness :
  (7 : Z) ≠ 42%Z
  ∧ files_of (on_message [42%Z; 7%Z] hello_from_ada two_users_files)
      !! memory_file 7
    = Some (Json (Memory "bob" [Entry user "yo"; Entry bot "yo"]))
  ∧ files_of (clear_data [42%Z; 7%Z] hello_from_ada two_users_files)
      !! memory_file 7
    = Some (Json (Memory "bob" [Entry user "yo"; Entry bot "yo"])).
Proof.
  assert (H : (7 : Z) ≠ 42%Z) by discriminate.
  destruct (store_operations_frame [42%Z; 7%Z] hello_from_ada "ada"
              (Memory "ada" []) two_users_files 7 H)
    as (_ & _ & [Hclear _] & [Hmsg _]).
  split; [exact H|]. split; [exact Hmsg | exact Hclear].
Defined.

End Examples.

(** ** More on the bounded history *)

Module HistoryShape.
Import History HistoryFacts.

(** X1. One call of [update_message_history] keeps the new entry as the
    last one and drops entries only from the front, as many as the list
    with the new entry exceeds 20: with fewer than 20 entries before, none. *)
Theorem update_message_history_closed_form (h : list entry) (e : entry) :
  update_message_history h e = drop (length h + 1 - 20) h ++ [e]
  ∧ length (update_message_history h e) = (length h + 1) `min` 20
  ∧ last (update_message_history h e) = Some e.
Proof.
  assert (Heq : update_message_history h e = drop (length h + 1 - 20) h ++ [e]).
  { rewrite update_message_history_last_n. unfold last_n, bound.
    rewrite length_app. cbn [length]. by rewrite drop_app_le by lia. }
  rewrite Heq. split; [done|]. split.
  - rewrite length_app, length_drop. cbn [length]. lia.
  - apply last_snoc.
Qed.

(** X2. From any starting history, also one longer than 20 entries, a run
    of at least one append leaves the last 20 entries of the starting
    history followed by the appended ones; with no append the history is
    not cut. *)
Theorem append_all_from_any_history (h0 : list entry) (e : entry)
    (news : list entry) :
  append_all h0 (e :: news) = last_n 20 (h0 ++ e :: news)
  ∧ append_all h0 [] = h0.
Proof.
  split; [|done].
  change (append_all h0 (e :: news))
    with (append_all (update_message_history h0 e) news).
  rewrite update_message_history_last_n, append_all_last_n.
  by rewrite <- app_assoc.
Qed.

End HistoryShape.

(** ** More on the store functions *)

Module StoreShape.
Import StoreFacts HandlerFacts.

(** X3. What [save_chat_memory] writes for a user is what the next
    [load_chat_memory] of that user returns, whatever hint it is given and
    without writing; of two saves in a row the second one wins. *)
Theorem save_then_load (user_id : Z) (m m' : memory) (hint : string)
    (fs : gmap string content) :
  let saved := files_of (save_chat_memory user_id m fs) in
  load_chat_memory user_id hint saved = (Return m, saved, load_trace user_id)
  ∧ files_of (save_chat_memory user_id m' saved)
    = files_of (save_chat_memory user_id m' fs).
Proof.
  cbv zeta. rewrite !save_chat_memory_run. cbv [files_of fst snd]. split.
  - by rewrite load_chat_memory_run, lookup_insert_eq.
  - apply insert_insert_eq.
Qed.

(** X4. Whenever [load_chat_memory] returns a record, the user's file holds
    exactly that record afterwards: either the record was on file already
    and no file has changed, or there was no file and the record is the
    fresh one, with the hint and no messages, now written. *)
Theorem load_chat_memory_post (user_id : Z) (hint : string)
    (fs : gmap string content) (m : memory) :
  result_of (load_chat_memory user_id hint fs) = Return m →
  let run := load_chat_memory user_id hint fs in
  files_of run !! memory_file user_id = Some (Json m)
  ∧ (fs !! memory_file user_id = Some (Json m) ∧ files_of run = fs
     ∨ fs !! memory_file user_id = None ∧ m = Memory hint []
       ∧ files_of run = <[memory_file user_id := Json m]> fs).
Proof.
  cbv zeta. rewrite load_chat_memory_run.
  destruct (fs !! memory_file user_id) as [[m'|]|] eqn:Hf;
    cbv [result_of files_of fst snd]; intros [= <-].
  - split; [done|]. by left.
  - split; [apply lookup_insert_eq|]. by right.
Qed.

(** X5. [clear_data] never writes a file, and it calls [unlink] only on a
    file that exists, since the call is behind the [exists] test. For any
    sender and any files, the files afterwards are the old ones without the
    sender's file when the sender is allowed, and the old ones otherwise. *)
Theorem clear_data_removes_only_what_exists A (u : update)
    (fs : gmap string content) :
  let run := clear_data A u fs in
  writes (trace_of run) = []
  ∧ Forall (λ e, match e with
                 | Unlink path => is_Some (fs !! path)
                 | _ => True
                 end) (trace_of run)
  ∧ files_of run =
    if decide (effective_user_id u ∈ A)
    then delete (memory_file (effective_user_id u)) fs else fs.
Proof.
  cbv zeta. case_decide as Hin.
  - rewrite clear_data_authorized by done. cbv zeta.
    destruct (fs !! memory_file (effective_user_id u)) eqn:Hf;
      cbv [files_of trace_of fst snd]; (split; [done|]); split.
    + repeat constructor. by rewrite Hf.
    + done.
    + by repeat constructor.
    + symmetry. by apply delete_id.
  - rewrite clear_data_unauthorized by done.
    cbv [files_of trace_of fst snd]. by repeat constructor.
Qed.

Local Ltac own_file_only :=
  repeat constructor; cbn [file_of];
  first [done | let H := fresh in intros H; apply (inj Some) in H; congruence].

(** X6. The handlers name no path but [data/<user_id>.json] of the sender
    and the directory [data] that the load creates: every other path keeps
    its content and is named by no file-system call of [on_message] or
    [clear_data]. The sender's file is never one of the two configuration
    files. *)
Theorem handlers_touch_only_own_file A (u : update) (fs : gmap string content)
    (path : string) :
  path ≠ memory_file (effective_user_id u) →
  path ≠ "data" →
  leaves_alone path fs (on_message A u fs)
  ∧ leaves_alone path fs (clear_data A u fs)
  ∧ memory_file (effective_user_id u) ≠ "allowed_users.json"
  ∧ memory_file (effective_user_id u) ≠ "private.json".
Proof.
  intros Hne Hdir. unfold leaves_alone.
  split; [|split; [|by split]].
  - destruct (decide (effective_user_id u ∈ A)) as [Hin|Hout].
    + rewrite on_message_authorized by done. cbv zeta.
      rewrite load_chat_memory_run.
      destruct (fs !! memory_file (effective_user_id u)) as [[m|]|];
        cbv [files_of trace_of fst snd load_trace reply_then_save app];
        (split; [|own_file_only]);
        rewrite ?lookup_insert_ne by done; done.
    + rewrite on_message_unauthorized by done.
      cbv [files_of trace_of fst snd]. split; [done | own_file_only].
  - destruct (decide (effective_user_id u ∈ A)) as [Hin|Hout].
    + rewrite clear_data_authorized by done. cbv zeta.
      destruct (fs !! memory_file (effective_user_id u));
        cbv [files_of trace_of fst snd]; (split; [|own_file_only]);
        rewrite ?lookup_delete_ne by done; done.
    + rewrite clear_data_unauthorized by done.
      cbv [files_of trace_of fst snd]. split; [done | own_file_only].
Qed.

End StoreShape.

(** ** Runs of several messages *)

Module Sessions.
Import History HistoryFacts StoreFacts HandlerFacts.

Lemma on_message_loaded A u fs m :
  effective_user_id u ∈ A →
  fs !! memory_file (effective_user_id u) = Some (Json m) →
  on_message A u fs =
  let final := Memory (username m) (append_all (messages m) (exchange u)) in
  (Return (), <[memory_file (effective_user_id u) := Json final]> fs,
   load_trace (effective_user_id u)
   ++ reply_then_save (effective_user_id u) (message_text u) final).
Proof.
  intros Hin Hf. rewrite on_message_authorized by done. cbv zeta.
  by rewrite load_chat_memory_run, Hf.
Qed.

Lemma on_message_fresh A u fs :
  effective_user_id u ∈ A →
  fs !! memory_file (effective_user_id u) = None →
  let user_id := effective_user_id u in
  let hint := username_or_str (effective_user_username u) user_id in
  result_of (on_message A u fs) = Return ()
  ∧ files_of (on_message A u fs) =
    <[memory_file user_id := Json (Memory hint (exchange u))]> fs
  ∧ replies (trace_of (on_message A u fs)) = [message_text u]
  ∧ logs (trace_of (on_message A u fs)) = [].
Proof.
  intros Hin Hf user_id hint. rewrite on_message_authorized by done. cbv zeta.
  fold user_id hint. rewrite load_chat_memory_run. fold user_id in Hf.
  rewrite Hf. cbv [result_of files_of trace_of fst snd].
  repeat split; try done. apply insert_insert_eq.
Qed.

Lemma replies_app t1 t2 : replies (t1 ++ t2) = replies t1 ++ replies t2.
Proof. apply omap_app. Qed.

Lemma handle_all_loaded A user_id us : ∀ fs m,
  user_id ∈ A →
  Forall (λ u, effective_user_id u = user_id) us →
  fs !! memory_file user_id = Some (Json m) →
  (handle_all A us fs).1.1 = replicate (length us) (Return ())
  ∧ replies (handle_all A us fs).2 = message_text <$> us
  ∧ (handle_all A us fs).1.2 !! memory_file user_id =
    Some (Json (Memory (username m) (append_all (messages m) (transcript us)))).
Proof.
  induction us as [|u us IH]; intros fs m Hin Hall Hf.
  - cbn. rewrite Hf. by destruct m.
  - apply Forall_cons in Hall as [Hu Hall]. cbn [handle_all].
    rewrite (on_message_loaded A u fs m) by (by rewrite Hu). cbv zeta. rewrite Hu.
    set (final := Memory (username m) (append_all (messages m) (exchange u))).
    specialize (IH (<[memory_file user_id := Json final]> fs) final Hin Hall
                  (lookup_insert_eq _ _ _)).
    destruct (handle_all A us _) as [[rs fs2] t2]. cbn [fst snd] in *.
    destruct IH as (Hrs & Hreplies & Hstored).
    split; [by rewrite Hrs|]. split.
    + by rewrite replies_app, Hreplies.
    + by rewrite Hstored.
Qed.

(** X7. Messages of one allowed user handled one after the other on a
    stored record: every run returns normally, the replies are the inbound
    texts in their order, and the record at the end keeps its user name and
    holds the history that [update_message_history] makes of the old entries
    and the user and bot entries of the messages. *)
Theorem session_on_stored_record A (user_id : Z) (us : list update)
    (fs : gmap string content) (m : memory) :
  user_id ∈ A →
  Forall (λ u, effective_user_id u = user_id) us →
  fs !! memory_file user_id = Some (Json m) →
  (handle_all A us fs).1.1 = replicate (length us) (Return ())
  ∧ replies (handle_all A us fs).2 = message_text <$> us
  ∧ (handle_all A us fs).1.2 !! memory_file user_id =
    Some (Json (Memory (username m) (append_all (messages m) (transcript us)))).
Proof. apply handle_all_loaded. Qed.

(** X8. Messages of one allowed user without a file, handled one after the
    other: every run returns normally, the replies are the inbound texts in
    their order, and the record at the end carries the name taken at the
    first message and the last 20 entries of the whole exchange. *)
Theorem session_of_fresh_user A (user_id : Z) (u1 : update) (rest : list update)
    (fs : gmap string content) :
  user_id ∈ A →
  Forall (λ u, effective_user_id u = user_id) (u1 :: rest) →
  fs !! memory_file user_id = None →
  let run := handle_all A (u1 :: rest) fs in
  run.1.1 = replicate (S (length rest)) (Return ())
  ∧ replies run.2 = message_text <$> (u1 :: rest)
  ∧ run.1.2 !! memory_file user_id =
    Some (Json (Memory (username_or_str (effective_user_username u1) user_id)
                  (last_n 20 (transcript (u1 :: rest))))).
Proof.
  intros Hin Hall Hf. apply Forall_cons in Hall as [Hu Hall]. subst user_id.
  destruct (on_message_fresh A u1 fs Hin Hf) as (Hr & Hfs & Hrep & _).
  cbv zeta. cbn [handle_all].
  destruct (on_message A u1 fs) as [[r fs1] t1].
  cbv [result_of files_of trace_of fst snd] in Hr, Hfs, Hrep. subst r fs1.
  set (hint := username_or_str _ _).
  destruct (handle_all_loaded A (effective_user_id u1) rest
              (<[memory_file (effective_user_id u1) :=
                   Json (Memory hint (exchange u1))]> fs)
              (Memory hint (exchange u1)) Hin Hall (lookup_insert_eq _ _ _))
    as (Hrs & Hreplies & Hstored).
  destruct (handle_all A rest _) as [[rs fs2] t2]. cbn [fst snd] in *.
  split; [by rewrite Hrs|]. split.
  - by rewrite replies_app, Hrep, Hreplies.
  - rewrite Hstored. cbn [username messages]. do 3 f_equal.
    pose proof (append_all_last_n (transcript (u1 :: rest)) []) as Hlast.
    change (last_n bound []) with (@nil entry) in Hlast.
    rewrite app_nil_l in Hlast. fold bound. rewrite <- Hlast.
    unfold transcript. rewrite fmap_cons. cbn [concat].
    unfold append_all. by rewrite foldl_app.
Qed.

End Sessions.

(** ** The life of a record *)

Module Lifecycle.
Import History HistoryFacts StoreFacts HandlerFacts.

Lemma pretty_N_go_nonempty (x : N) : ∀ s, s ≠ "" → pretty_N_go x s ≠ "".
Proof.
  induction (N.lt_wf_0 x) as [x _ IH]; intros s Hs.
  destruct (decide (x = 0%N)) as [->|Hx].
  - by rewrite pretty_N_go_0.
  - rewrite pretty_N_go_step by lia. apply IH; [|done].
    apply N.div_lt; lia.
Qed.

Lemma pretty_N_nonempty (x : N) : pretty x ≠ "".
Proof.
  unfold pretty, pretty_N. case_decide as Hx; [done|].
  rewrite pretty_N_go_step by lia. by apply pretty_N_go_nonempty.
Qed.

(** [str(user_id)] has at least one character. *)
Lemma pretty_Z_nonempty (z : Z) : pretty z ≠ "".
Proof.
  destruct z as [|p|p]; [done | apply pretty_N_nonempty | done].
Qed.

Lemma username_or_str_nonempty name user_id : username_or_str name user_id ≠ "".
Proof.
  unfold username_or_str. destruct name as [s|]; [|apply pretty_Z_nonempty].
  case_decide; [apply pretty_Z_nonempty | done].
Qed.

(** X9. When every record on file has at most 20 entries, it is so again
    after [on_message] and after [clear_data], for any sender, allowed or
    not, and whether the run returns or raises. *)
Theorem handlers_keep_records_bounded A (u : update) (fs : gmap string content) :
  bounded_store fs →
  bounded_store (files_of (on_message A u fs))
  ∧ bounded_store (files_of (clear_data A u fs)).
Proof.
  intros Hb. unfold bounded_store in *. split.
  - destruct (decide (effective_user_id u ∈ A)) as [Hin|Hout];
      [|by rewrite on_message_unauthorized].
    rewrite on_message_authorized by done. cbv zeta.
    rewrite load_chat_memory_run.
    destruct (fs !! memory_file (effective_user_id u)) as [[m|]|];
      cbv [files_of fst snd]; [| done |].
    + apply map_Forall_insert_2; [|done].
      cbn [messages]. apply length_update_message_history.
    + apply map_Forall_insert_2; [apply length_update_message_history|].
      apply map_Forall_insert_2; [|done]. cbn. unfold bound. lia.
  - destruct (decide (effective_user_id u ∈ A)) as [Hin|Hout];
      [|by rewrite clear_data_unauthorized].
    rewrite clear_data_authorized by done. cbv zeta.
    destruct (fs !! memory_file (effective_user_id u));
      cbv [files_of fst snd]; [|done].
    by apply map_Forall_delete.
Qed.

(** X10. After [clear_data] of an allowed user, the next message of that
    user starts a new record, whatever the file held before, also when it
    was not JSON: the run returns normally, echoes the text, and stores the
    name of this message's sender with just the two entries of this
    message. *)
Theorem message_after_clear_starts_afresh A (u u' : update)
    (fs : gmap string content) :
  effective_user_id u ∈ A →
  effective_user_id u' = effective_user_id u →
  let user_id := effective_user_id u in
  let run := on_message A u (files_of (clear_data A u' fs)) in
  result_of run = Return ()
  ∧ replies (trace_of run) = [message_text u]
  ∧ files_of run !! memory_file user_id =
    Some (Json (Memory (username_or_str (effective_user_username u) user_id)
                  (exchange u))).
Proof.
  intros Hin Hsame user_id.
  assert (Hgone : files_of (clear_data A u' fs) !! memory_file user_id = None).
  { rewrite clear_data_authorized by (by rewrite Hsame). cbv zeta.
    rewrite Hsame. fold user_id.
    destruct (fs !! memory_file user_id) eqn:Hf; cbv [files_of fst snd];
      [apply lookup_delete_eq | done]. }
  cbv zeta. rewrite on_message_authorized by done. cbv zeta. fold user_id.
  rewrite load_chat_memory_run, Hgone. cbv [result_of files_of trace_of fst snd].
  repeat split; try done. by rewrite lookup_insert_eq.
Qed.

(** X11. A message of an allowed user leaves no log record, whether the
    run returns or raises: the only logger call on that path is at [DEBUG],
    below the configured level [INFO]. *)
Theorem allowed_message_is_not_logged A (u : update) (fs : gmap string content) :
  effective_user_id u ∈ A →
  logs (trace_of (on_message A u fs)) = [].
Proof.
  intros Hin. rewrite on_message_authorized by done. cbv zeta.
  rewrite load_chat_memory_run.
  by destruct (fs !! memory_file (effective_user_id u)) as [[m|]|].
Qed.

(** X12. The record created at the first message of an allowed user never
    has an empty user name: it is the Telegram user name when there is a
    non-empty one, and the decimal user id when the user name is missing or
    empty. *)
Theorem created_username_is_never_empty A (u : update) (fs : gmap string content) :
  effective_user_id u ∈ A →
  fs !! memory_file (effective_user_id u) = None →
  ∃ m, files_of (on_message A u fs) !! memory_file (effective_user_id u)
       = Some (Json m)
    ∧ username m ≠ ""
    ∧ username m =
      match effective_user_username u with
      | Some (String a s) => String a s
      | Some "" | None => pretty (effective_user_id u)
      end.
Proof.
  intros Hin Hf. rewrite on_message_authorized by done. cbv zeta.
  rewrite load_chat_memory_run, Hf. cbv [files_of fst snd].
  eexists. split; [apply lookup_insert_eq|]. cbn [username]. split.
  - apply username_or_str_nonempty.
  - unfold username_or_str.
    destruct (effective_user_username u) as [[|a s]|]; by try case_decide.
Qed.

End Lifecycle.

(** ** Start-up *)

Module Startup.

(** X13. The two configuration loads give the allow list and the
    configuration exactly when both files are there and decode, and then
    they are the decoded contents of [allowed_users.json] and
    [private.json], in this order. *)
Theorem load_configuration_files_loaded {J} (disk : gmap string (config_text J))
    (allowed config : J) :
  (load_configuration_files disk).1 = Loaded (allowed, config)
  ↔ disk !! "allowed_users.json" = Some (Decodes allowed)
    ∧ disk !! "private.json" = Some (Decodes config).
Proof.
  unfold load_configuration_files, load_json_file.
  destruct (disk !! "allowed_users.json") as [[a|]|];
    destruct (disk !! "private.json") as [[c|]|]; cbn;
    (split; [intros Hl | intros [Ha Hc]]); try split; congruence.
Qed.

(** X14. When start-up ends in [sys.exit], the status is 1 and exactly one
    record has been logged, at [ERROR], naming a file that is missing: the
    first of [allowed_users.json] and [private.json] that is. With
    [allowed_users.json] missing, [private.json] is not opened. *)
Theorem load_configuration_files_exit {J} (disk : gmap string (config_text J))
    (status : Z) :
  (load_configuration_files disk).1 = SystemExit status →
  status = 1%Z
  ∧ ∃ filename,
      disk !! filename = None
      ∧ logs (load_configuration_files disk).2 =
        [(ERROR, filename +:+
           " not found. Please create the file with required configuration.")]
      ∧ (filename = "allowed_users.json"
           ∧ (load_configuration_files disk).2 =
             [OpenRead "allowed_users.json";
              Log ERROR ("allowed_users.json" +:+
                " not found. Please create the file with required configuration.")]
         ∨ filename = "private.json"
           ∧ is_Some (disk !! "allowed_users.json")).
Proof.
  unfold load_configuration_files, load_json_file.
  destruct (disk !! "allowed_users.json") as [[a|]|] eqn:Ha;
    destruct (disk !! "private.json") as [[c|]|] eqn:Hc; cbn;
    intros Hexit; try discriminate Hexit;
    injection Hexit as <-; (split; [done|]).
  - exists "private.json". naive_solver.
  - exists "allowed_users.json". naive_solver.
  - exists "allowed_users.json". naive_solver.
  - exists "allowed_users.json". naive_solver.
Qed.

End Startup.

(** ** The further properties on concrete runs *)

Module SessionExamples.
Import Sessions Lifecycle Startup.

Lemma session_on_stored_record_witness :
  (42 : Z) ∈ [42%Z]
  ∧ Forall (λ u, effective_user_id u = 42%Z) [hello_from_ada; hello_from_ada]
  ∧ ada_files !! memory_file 42 =
    Some (Json (Memory "ada" [Entry user "hi"; Entry bot "hi"]))
  ∧ replies (handle_all [42%Z] [hello_from_ada; hello_from_ada] ada_files).2
    = ["hello"; "hello"]
  ∧ (handle_all [42%Z] [hello_from_ada; hello_from_ada] ada_files).1.2
      !! memory_file 42
    = Some (Json (Memory "ada"
                    [Entry user "hi"; Entry bot "hi";
                     Entry user "hello"; Entry bot "hello";
                     Entry user "hello"; Entry bot "hello"])).
Proof.
  assert (H1 : (42 : Z) ∈ [42%Z]) by (by vm_compute; left).
  assert (H2 : Forall (λ u, effective_user_id u = 42%Z)
                 [hello_from_ada; hello_from_ada])
    by (by repeat constructor).
  assert (H3 : ada_files !! memory_file 42 =
               Some (Json (Memory "ada" [Entry user "hi"; Entry bot "hi"])))
    by (by vm_compute).
  destruct (session_on_stored_record [42%Z] 42 [hello_from_ada; hello_from_ada]
              ada_files _ H1 H2 H3) as (_ & Hreplies & Hstored).
  do 3 (split; [assumption|]). split; [exact Hreplies | exact Hstored].
Defined.

Lemma session_of_fresh_user_witness :
  (42 : Z) ∈ [42%Z]
  ∧ Forall (λ u, effective_user_id u = 42%Z) session_26
  ∧ no_files !! memory_file 42 = None
  ∧ length (replies (handle_all [42%Z] session_26 no_files).2) = 26
  ∧ (handle_all [42%Z] session_26 no_files).1.2 !! memory_file 42
    = Some (Json (Memory "ada" (transcript (drop 16 session_26)))).
Proof.
  assert (H1 : (42 : Z) ∈ [42%Z]) by (by vm_compute; left).
  assert (H2 : Forall (λ u, effective_user_id u = 42%Z) session_26)
    by (by repeat constructor).
  assert (H3 : no_files !! memory_file 42 = None) by (by vm_compute).
  destruct (session_of_fresh_user [42%Z] 42 (Update 42 (Some "ada") "0")
              (tail session_26) no_files H1 H2 H3)
    as (_ & Hreplies & Hstored).
  do 3 (split; [assumption|]). split.
  - exact (f_equal length Hreplies).
  - exact Hstored.
Defined.

Lemma handlers_keep_records_bounded_witness :
  bounded_store two_users_files
  ∧ bounded_store (files_of (on_message [42%Z] hello_from_ada two_users_files))
  ∧ bounded_store (files_of (clear_data [42%Z] hello_from_ada two_users_files)).
Proof.
  assert (H : bounded_store two_users_files).
  { apply map_Forall_insert_2; [cbn; unfold History.bound; lia|].
    apply map_Forall_singleton. cbn. unfold History.bound. lia. }
  split; [exact H|].
  exact (handlers_keep_records_bounded [42%Z] hello_from_ada two_users_files H).
Defined.

Lemma message_after_clear_starts_afresh_witness :
  (42 : Z) ∈ [42%Z]
  ∧ result_of (on_message [42%Z] hello_from_ada
                 (files_of (clear_data [42%Z] hello_from_ada corrupt_files)))
    = Return ()
  ∧ files_of (on_message [42%Z] hello_from_ada
                (files_of (clear_data [42%Z] hello_from_ada corrupt_files)))
      !! memory_file 42
    = Some (Json (Memory "ada" [Entry user "hello"; Entry bot "hello"])).
Proof.
  assert (H : (42 : Z) ∈ [42%Z]) by (by vm_compute; left).
  destruct (message_after_clear_starts_afresh [42%Z] hello_from_ada
              hello_from_ada corrupt_files H eq_refl)
    as (Hr & _ & Hstored).
  split; [exact H|]. split; [exact Hr | exact Hstored].
Defined.

Lemma allowed_message_is_not_logged_witness :
  (42 : Z) ∈ [42%Z]
  ∧ logs (trace_of (on_message [42%Z] hello_from_ada ada_files)) = [].
Proof.
  assert (H : (42 : Z) ∈ [42%Z]) by (by vm_compute; left).
  split; [exact H|].
  exact (allowed_message_is_not_logged [42%Z] hello_from_ada ada_files H).
Defined.

Lemma created_username_is_never_empty_witness :
  (7 : Z) ∈ [7%Z]
  ∧ no_files !! memory_file 7 = None
  ∧ ∃ m, files_of (on_message [7%Z] hi_from_stranger no_files) !! memory_file 7
         = Some (Json m)
      ∧ username m = "7".
Proof.
  assert (H1 : (7 : Z) ∈ [7%Z]) by (by vm_compute; left).
  assert (H2 : no_files !! memory_file 7 = None) by (by vm_compute).
  destruct (created_username_is_never_empty [7%Z] hi_from_stranger no_files
              H1 H2) as (m & Hstored & _ & Hname).
  do 2 (split; [assumption|]). exists m. split; [exact Hstored | exact Hname].
Defined.

Lemma load_configuration_files_exit_witness :
  (load_configuration_files only_private_json).1 = SystemExit 1
  ∧ ∃ filename,
      only_private_json !! filename = None
      ∧ logs (load_configuration_files only_private_json).2 =
        [(ERROR, filename +:+
           " not found. Please create the file with required configuration.")].
Proof.
  assert (H : (load_configuration_files only_private_json).1 = SystemExit 1)
    by (by vm_compute).
  split; [exact H|].
  destruct (load_configuration_files_exit only_private_json 1 H)
    as (_ & filename & Hmissing & Hlogs & _).
  exists filename. split; [exact Hmissing | exact Hlogs].
Defined.

Lemma load_chat_memory_post_witness :
  result_of (load_chat_memory 42 "eve" ada_files)
    = Return (Memory "ada" [Entry user "hi"; Entry bot "hi"])
  ∧ files_of (load_chat_memory 42 "eve" ada_files) !! memory_file 42
    = Some (Json (Memory "ada" [Entry user "hi"; Entry bot "hi"])).
Proof.
  assert (H : result_of (load_chat_memory 42 "eve" ada_files)
              = Return (Memory "ada" [Entry user "hi"; Entry bot "hi"]))
    by (by vm_compute).
  split; [exact H|].
  exact (proj1 (StoreShape.load_chat_memory_post 42 "eve" ada_files _ H)).
Defined.

Lemma handlers_touch_only_own_file_witness :
  "allowed_users.json" ≠ memory_file 42
  ∧ "allowed_users.json" ≠ "data"
  ∧ leaves_alone "allowed_users.json" ada_files
      (on_message [42%Z] hello_from_ada ada_files)
  ∧ leaves_alone "allowed_users.json" ada_files
      (clear_data [42%Z] hello_from_ada ada_files).
Proof.
  assert (H1 : "allowed_users.json" ≠ memory_file 42) by (by vm_compute).
  assert (H2 : "allowed_users.json" ≠ "data") by (by vm_compute).
  destruct (StoreShape.handlers_touch_only_own_file [42%Z] hello_from_ada
              ada_files "allowed_users.json" H1 H2) as (Hmsg & Hclear & _).
  do 2 (split; [assumption|]). split; [exact Hmsg | exact Hclear].
Defined.

End SessionExamples.

(** ** Users side by side *)

Module Isolation.
Import StoreFacts HandlerFacts.

Lemma on_message_other_path A u fs path :
  path ≠ memory_file (effective_user_id u) →
  files_of (on_message A u fs) !! path = fs !! path.
Proof.
  intros Hne. destruct (decide (effective_user_id u ∈ A)) as [Hin|Hout];
    [|by rewrite on_message_unauthorized].
  rewrite on_message_authorized by done. cbv zeta.
  rewrite load_chat_memory_run.
  destruct (fs !! memory_file (effective_user_id u)) as [[m|]|];
    cbv [files_of fst snd]; by rewrite ?lookup_insert_ne by done.
Qed.

(** What [on_message] leaves in the sender's file depends on nothing but
    what that file held. *)
Lemma on_message_own_file A u fs fs' :
  fs !! memory_file (effective_user_id u)
  = fs' !! memory_file (effective_user_id u) →
  files_of (on_message A u fs) !! memory_file (effective_user_id u)
  = files_of (on_message A u fs') !! memory_file (effective_user_id u).
Proof.
  intros Heq. destruct (decide (effective_user_id u ∈ A)) as [Hin|Hout];
    [|by rewrite !on_message_unauthorized].
  rewrite !on_message_authorized by done. cbv zeta.
  rewrite !load_chat_memory_run, Heq.
  destruct (fs' !! memory_file (effective_user_id u)) as [[m|]|] eqn:Hf;
    cbv [files_of fst snd]; rewrite ?lookup_insert_eq; congruence.
Qed.

Lemma handle_all_own_file A user_id us : ∀ fs fs',
  fs !! memory_file user_id = fs' !! memory_file user_id →
  (handle_all A us fs).1.2 !! memory_file user_id
  = (handle_all A (filter (λ u, effective_user_id u = user_id) us) fs').1.2
      !! memory_file user_id.
Proof.
  induction us as [|u us IH]; intros fs fs' Heq; [done|].
  cbn [handle_all]. rewrite filter_cons.
  destruct (decide (effective_user_id u = user_id)) as [<-|Hother].
  - cbn [handle_all].
    pose proof (on_message_own_file A u fs fs' Heq) as Hstep.
    destruct (on_message A u fs) as [[r fs1] t1].
    destruct (on_message A u fs') as [[r' fs1'] t1'].
    cbv [files_of fst snd] in Hstep. specialize (IH fs1 fs1' Hstep).
    destruct (handle_all A us fs1) as [[rs fs2] t2].
    by destruct (handle_all A _ fs1') as [[rs' fs2'] t2'].
  - assert (Hstep : files_of (on_message A u fs) !! memory_file user_id
                    = fs' !! memory_file user_id).
    { rewrite on_message_other_path; [done|].
      intros H. by apply memory_file_inj in H. }
    destruct (on_message A u fs) as [[r fs1] t1].
    cbv [files_of fst snd] in Hstep. specialize (IH fs1 fs' Hstep).
    by destruct (handle_all A us fs1) as [[rs fs2] t2].
Qed.

(** X15. Handled one after the other, the messages of several users do not
    mix: what a user's file holds at the end is what it would hold had only
    that user's messages been handled, in the same order. *)
Theorem users_do_not_interfere A (user_id : Z) (us : list update)
    (fs : gmap string content) :
  (handle_all A us fs).1.2 !! memory_file user_id
  = (handle_all A (filter (λ u, effective_user_id u = user_id) us) fs).1.2
      !! memory_file user_id.
Proof. by apply handle_all_own_file. Qed.

(** X16. While the file of an allowed user is not JSON, every message of
    that user raises the decoding error, gets no reply and changes no
    file, however many are sent. *)
Theorem undecodable_record_blocks_every_message A (user_id : Z)
    (us : list update) (fs : gmap string content) :
  user_id ∈ A →
  Forall (λ u, effective_user_id u = user_id) us →
  fs !! memory_file user_id = Some Undecodable →
  (handle_all A us fs).1.1 = replicate (length us) (Raise JSONDecodeError)
  ∧ (handle_all A us fs).1.2 = fs
  ∧ replies (handle_all A us fs).2 = []
  ∧ writes (handle_all A us fs).2 = [].
Proof.
  intros Hin Hall Hf. induction Hall as [|u us Hu Hall IH]; [done|].
  cbn [handle_all]. rewrite on_message_authorized by (by rewrite Hu).
  cbv zeta. rewrite Hu, load_chat_memory_run, Hf.
  destruct (handle_all A us fs) as [[rs fs2] t2]. cbn [fst snd] in *.
  destruct IH as (-> & -> & Hreplies & Hwrites).
  unfold replies, writes in *. rewrite !omap_app, Hreplies, Hwrites. done.
Qed.

Lemma undecodable_record_blocks_every_message_witness :
  (42 : Z) ∈ [42%Z]
  ∧ Forall (λ u, effective_user_id u = 42%Z) session_26
  ∧ corrupt_files !! memory_file 42 = Some Undecodable
  ∧ (handle_all [42%Z] session_26 corrupt_files).1.2 = corrupt_files
  ∧ replies (handle_all [42%Z] session_26 corrupt_files).2 = [].
Proof.
  assert (H1 : (42 : Z) ∈ [42%Z]) by (by vm_compute; left).
  assert (H2 : Forall (λ u, effective_user_id u = 42%Z) session_26)
    by (by repeat constructor).
  assert (H3 : corrupt_files !! memory_file 42 = Some Undecodable)
    by (by vm_compute).
  destruct (undecodable_record_blocks_every_message [42%Z] 42 session_26
              corrupt_files H1 H2 H3) as (_ & Hfiles & Hreplies & _).
  do 3 (split; [assumption|]). split; [exact Hfiles | exact Hreplies].
Defined.

End Isolation.

(** ** Runs of one user that overlap *)

Module Overlap.
Import StoreFacts HandlerFacts.

(** A run of [on_message] is its part up to the [await] followed, from the
    files that part left, by its part after the [await]. *)
Lemma on_message_cut_at_await A u fs :
  on_message A u fs =
  let '(held, fs1, t1) := on_message_until_await A u fs in
  let '(r, fs2, t2) := resume held fs1 in
  (r, fs2, t1 ++ t2).
Proof.
  unfold on_message, on_message_until_await, resume, on_message_after_await.
  case_decide.
  - cbv [logger emit root_level levelno mbind mret io_bind io_ret].
    by case_decide; [|lia].
  - cbv [update_message_history logger reply_text emit root_level levelno
         mbind mret io_bind io_ret].
    case_decide; [lia|].
    destruct (load_chat_memory _ _ fs) as [[[m0|e] fs0] t0].
    + cbn [held_memory held_reply held_user_id username messages].
      rewrite !save_chat_memory_run. cbn [app].
      by rewrite <- ?app_assoc.
    + by rewrite app_nil_r.
Qed.






End Overlap.
